(** * feast_azure_provider.mssqlserver_source

    A shallow embedding of [MsSqlServerOptions] and [MsSqlServerSource]
    (provider/sdk/feast_azure_provider/mssqlserver_source.py) together with
    the facts about them that the specification of the module states.

    Layout:
    - [Py]       Python exceptions, results, [Optional[str]];
    - [Json]     the part of the standard [json] module the program uses:
                 objects whose values are strings or [null];
    - [Proto]    the protocol messages;
    - [World]    the store of options objects, the log of calls that
                 leave the program, the external collaborators (SQL layer,
                 inference of the base class) as an environment;
    - [Str]      [split], unpacking, [zip];
    - [MsSqlServerOptions], [MsSqlServerSource]   the two classes;
    - [Examples] stubs and sample objects;
    - the facts: the codec, the runs of the methods, the statements of
      the specification.  *)

From Stdlib Require Import Ascii NArith ZArith Lia Bool.
From stdpp Require Import base option list strings gmap.

(** ** Python values, exceptions, results *)

Module Py.

(** Exceptions the program can end with.  [Unsupported] is not a Python
    exception: it marks a situation outside the fragment that is modelled
    (a non-ASCII byte in a payload, a JSON value that is neither a string
    nor [null], a reference to an object that was never created), about
    which the model says nothing. *)
Inductive exn :=
| KeyError (key : string)
| TypeError (msg : string)
| ValueError (msg : string)
| AttributeError (msg : string)
| JSONDecodeError (msg : string)
| ExternalError (msg : string)
| Unsupported.

Inductive result (A : Type) :=
| Ok (a : A)
| Err (e : exn).
Arguments Ok {A} a.
Arguments Err {A} e.

Definition rbind {A B} (r : result A) (k : A -> result B) : result B :=
  match r with
  | Ok a => k a
  | Err e => Err e
  end.

#[global] Instance result_ret : MRet result := @Ok.
#[global] Instance result_bind : MBind result :=
  fun A B k r => rbind r k.

(** [Optional[str]]: [None] is Python's [None]. *)
Abbreviation pystr := (option string).

(** Truthiness of an [Optional[str]]: [None] and the empty string are
    falsy, every other string is truthy. *)
Definition truthy (v : pystr) : bool :=
  match v with
  | None => false
  | Some EmptyString => false
  | Some (String _ _) => true
  end.

(** [str(v)] as an f-string placeholder renders it. *)
Definition format (v : pystr) : string :=
  match v with
  | None => "None"
  | Some s => s
  end.

End Py.
Export Py.

(** ** JSON: objects of strings and nulls *)

Module Json.

Definition dquote : ascii := Eval cbv in ascii_of_N 34.
Definition backslash : ascii := Eval cbv in ascii_of_N 92.

(** A Python [dict] with string keys and [Optional[str]] values, in
    insertion order and without repeated keys. *)
Abbreviation dict := (list (string * pystr)).

Fixpoint dict_get (d : dict) (k : string) : result pystr :=
  match d with
  | [] => Err (KeyError k)
  | (k', v) :: d' => if String.eqb k' k then Ok v else dict_get d' k
  end.

(** [d[k] = v]: an existing key keeps its position. *)
Fixpoint dict_set (d : dict) (k : string) (v : pystr) : dict :=
  match d with
  | [] => [(k, v)]
  | (k', v') :: d' =>
      if String.eqb k' k then (k', v) :: d' else (k', v') :: dict_set d' k v
  end.

Definition put (d : dict) (kv : string * pystr) : dict :=
  dict_set d kv.1 kv.2.

(** A dict display [{k1: v1, k2: v2, ...}]. *)
Definition dict_literal (items : list (string * pystr)) : dict :=
  fold_left put items [].

(** *** [json.dumps] (default arguments: [ensure_ascii], separators
    [", "] and [": "]) *)

Definition hex_digit (n : N) : ascii :=
  if (n <? 10)%N then ascii_of_N (48 + n) else ascii_of_N (87 + n).

(** [ESCAPE_DCT] and the [\uXXXX] fallback of [encode_basestring_ascii]:
    everything outside [' '..'~'], the quote and the backslash are
    escaped. *)
Definition escape_char (c : ascii) : string :=
  let n := N_of_ascii c in
  if Ascii.eqb c dquote then String backslash (String dquote EmptyString)
  else if Ascii.eqb c backslash then String backslash (String backslash EmptyString)
  else if (n =? 10)%N then String backslash "n"
  else if (n =? 13)%N then String backslash "r"
  else if (n =? 9)%N then String backslash "t"
  else if (n =? 8)%N then String backslash "b"
  else if (n =? 12)%N then String backslash "f"
  else if ((32 <=? n) && (n <=? 126))%N then String c EmptyString
  else String backslash
         (String "u" (String "0" (String "0"
            (String (hex_digit (n / 16)) (String (hex_digit (n mod 16))
               EmptyString))))).

Fixpoint escape (s : string) : string :=
  match s with
  | EmptyString => EmptyString
  | String c s' => escape_char c +:+ escape s'
  end.

Definition quote (s : string) : string :=
  String dquote (escape s +:+ String dquote EmptyString).

Definition dumps_value (v : pystr) : string :=
  match v with
  | None => "null"
  | Some s => quote s
  end.

Definition dumps_item (kv : string * pystr) : string :=
  quote kv.1 +:+ ": " +:+ dumps_value kv.2.

Fixpoint dumps_items (d : dict) : string :=
  match d with
  | [] => EmptyString
  | [kv] => dumps_item kv
  | kv :: d' => dumps_item kv +:+ ", " +:+ dumps_items d'
  end.

Definition dumps (d : dict) : string :=
  "{" +:+ dumps_items d +:+ "}".

(** *** [json.loads] *)

Definition is_ws (c : ascii) : bool :=
  let n := N_of_ascii c in
  ((n =? 32) || (n =? 9) || (n =? 10) || (n =? 13))%N.

Fixpoint skip_ws (s : string) : string :=
  match s with
  | EmptyString => EmptyString
  | String c r => if is_ws c then skip_ws r else s
  end.

Definition hex_value (c : ascii) : option N :=
  let n := N_of_ascii c in
  if ((48 <=? n) && (n <=? 57))%N then Some (n - 48)%N
  else if ((97 <=? n) && (n <=? 102))%N then Some (n - 87)%N
  else if ((65 <=? n) && (n <=? 70))%N then Some (n - 55)%N
  else None.

Definition hex4 (a b c d : ascii) : option N :=
  a' ← hex_value a; b' ← hex_value b; c' ← hex_value c; d' ← hex_value d;
  Some (((a' * 16 + b') * 16 + c') * 16 + d')%N.

(** [BACKSLASH] of the decoder. *)
Definition unescape (e : ascii) : option ascii :=
  if Ascii.eqb e dquote then Some dquote
  else if Ascii.eqb e backslash then Some backslash
  else if Ascii.eqb e "/" then Some "/"%char
  else if Ascii.eqb e "b" then Some (ascii_of_N 8)
  else if Ascii.eqb e "f" then Some (ascii_of_N 12)
  else if Ascii.eqb e "n" then Some (ascii_of_N 10)
  else if Ascii.eqb e "r" then Some (ascii_of_N 13)
  else if Ascii.eqb e "t" then Some (ascii_of_N 9)
  else None.

(** [scanstring], strict: reads the body of a string literal after its
    opening quote and returns it with the text after the closing quote.
    A character is one byte here: a byte above 127 or an escape above
    code 255 is outside the model. *)
Fixpoint scanstring (s : string) : result (string * string) :=
  match s with
  | EmptyString => Err (JSONDecodeError "Unterminated string starting at")
  | String c rest =>
      if Ascii.eqb c dquote then Ok (EmptyString, rest)
      else if Ascii.eqb c backslash then
        match rest with
        | EmptyString => Err (JSONDecodeError "Unterminated string starting at")
        | String e rest1 =>
            if Ascii.eqb e "u" then
              match rest1 with
              | String h1 (String h2 (String h3 (String h4 rest2))) =>
                  match hex4 h1 h2 h3 h4 with
                  | Some n =>
                      if (n <? 256)%N then
                        '(t, r) ← scanstring rest2;
                        Ok (String (ascii_of_N n) t, r)
                      else Err Unsupported
                  | None => Err (JSONDecodeError "Invalid \uXXXX escape")
                  end
              | _ => Err (JSONDecodeError "Invalid \uXXXX escape")
              end
            else
              match unescape e with
              | Some ch =>
                  '(t, r) ← scanstring rest1; Ok (String ch t, r)
              | None => Err (JSONDecodeError "Invalid \escape")
              end
        end
      else if (N_of_ascii c <? 32)%N then
        Err (JSONDecodeError "Invalid control character at")
      else if (127 <? N_of_ascii c)%N then Err Unsupported
      else '(t, r) ← scanstring rest; Ok (String c t, r)
  end.

(** A value: a string or [null]; any other JSON value is outside the
    model. *)
Definition parse_value (s : string) : result (pystr * string) :=
  match s with
  | String c r =>
      if Ascii.eqb c dquote then
        '(v, r') ← scanstring r; Ok (Some v, r')
      else
        match s with
        | String "n" (String "u" (String "l" (String "l" r'))) => Ok (None, r')
        | _ => Err Unsupported
        end
  | EmptyString => Err (JSONDecodeError "Expecting value")
  end.

(** The members of an object, from the opening quote of a key on.
    Every round consumes input, so [fuel] above the length of the text
    is never used up. *)
Fixpoint parse_members (fuel : nat) (s : string) (acc : dict)
  : result (dict * string) :=
  match fuel with
  | O => Err Unsupported
  | S fuel' =>
      match s with
      | String c r =>
          if Ascii.eqb c dquote then
            '(k, r1) ← scanstring r;
            match skip_ws r1 with
            | String ":" r2 =>
                '(v, r3) ← parse_value (skip_ws r2);
                let acc' := dict_set acc k v in
                match skip_ws r3 with
                | String "}" r4 => Ok (acc', r4)
                | String "," r4 => parse_members fuel' (skip_ws r4) acc'
                | _ => Err (JSONDecodeError "Expecting ',' delimiter")
                end
            | _ => Err (JSONDecodeError "Expecting ':' delimiter")
            end
          else
            Err (JSONDecodeError
                   "Expecting property name enclosed in double quotes")
      | EmptyString =>
          Err (JSONDecodeError
                 "Expecting property name enclosed in double quotes")
      end
  end.

Definition finish (d : dict) (rest : string) : result dict :=
  match skip_ws rest with
  | EmptyString => Ok d
  | String _ _ => Err (JSONDecodeError "Extra data")
  end.

(** [json.loads] of a payload; a document that is not an object is
    outside the model. *)
Definition loads (s : string) : result dict :=
  match skip_ws s with
  | EmptyString => Err (JSONDecodeError "Expecting value")
  | String "{" r =>
      match skip_ws r with
      | String "}" r' => finish [] r'
      | r1 =>
          '(d, r') ← parse_members (String.length r1) r1 [];
          finish d r'
      end
  | String _ _ => Err Unsupported
  end.

End Json.


(** ** The protocol messages

    The messages of [DataSource_pb2] the module reads and writes.  A
    [string] field of a message holds a string, never [None]: assigning
    [None] to it raises [TypeError]; a map field given as [None] to the
    message constructor stays empty. *)

Module Proto.

Record CustomSourceOptions := { configuration : string }.

Inductive SourceType := INVALID | CUSTOM_SOURCE.

Record DataSource := {
  type : SourceType;
  field_mapping : gmap string string;
  custom_options : CustomSourceOptions;
  event_timestamp_column : string;
  created_timestamp_column : string;
  date_partition_column : string;
}.

Definition set_string (field : string) (v : pystr) : result string :=
  match v with
  | Some s => Ok s
  | None => Err (TypeError ("bad argument type for " +:+ field))
  end.

Definition map_field (v : option (gmap string string)) : gmap string string :=
  default ∅ v.

End Proto.

(** ** The world the program runs in *)

Module World.

Abbreviation loc := positive.

(** The state of a [MsSqlServerOptions] object. *)
Record options := { _connection_str : pystr; _table_ref : pystr }.

Record Engine := { url : pystr }.

(** A [pandas.DataFrame]: its columns by label, in order. *)
Abbreviation DataFrame := (list (string * list string)).

(** The frame a query layer makes of the rows of the metadata query
    [SELECT COLUMN_NAME, DATA_TYPE ...]. *)
Definition frame_of_rows (rows : list (string * string)) : DataFrame :=
  [("COLUMN_NAME", rows.*1); ("DATA_TYPE", rows.*2)].

(** Calls that leave the program. *)
Inductive event :=
| CreateEngine (connection_str : pystr)
| ReadSql (query : string)
| InferEventTimestampColumn (pattern : string).

(** The collaborators the module imports: [sqlalchemy.create_engine],
    [pandas.read_sql] and the method [_infer_event_timestamp_column] of the
    base class [DataSource], which sees the connection string and the
    table reference already set on the object. *)
Record Env := {
  create_engine : pystr -> result Engine;
  read_sql : string -> Engine -> result DataFrame;
  _infer_event_timestamp_column : pystr -> pystr -> string -> result pystr;
}.

(** Options objects are shared by reference: the store maps the identity
    of each to its state. *)
Record world := { heap : gmap loc options; log : list event }.

Definition M (A : Type) : Type := world -> result A * world.

#[global] Instance M_ret : MRet M := fun A a w => (Ok a, w).
#[global] Instance M_bind : MBind M := fun A B k m w =>
  match m w with
  | (Ok a, w') => k a w'
  | (Err e, w') => (Err e, w')
  end.

Definition raise {A} (e : exn) : M A := fun w => (Err e, w).

Definition lift {A} (r : result A) : M A := fun w => (r, w).

Definition emit (ev : event) : M unit := fun w =>
  (Ok tt, {| heap := heap w; log := log w ++ [ev] |}).

Definition alloc (o : options) : M loc := fun w =>
  let l := fresh (dom (heap w)) in
  (Ok l, {| heap := <[l := o]> (heap w); log := log w |}).

Definition load (l : loc) : M options := fun w =>
  match heap w !! l with
  | Some o => (Ok o, w)
  | None => (Err Unsupported, w)
  end.

Definition store (l : loc) (o : options) : M unit := fun w =>
  match heap w !! l with
  | Some _ => (Ok tt, {| heap := <[l := o]> (heap w); log := log w |})
  | None => (Err Unsupported, w)
  end.

End World.
Export World.

(** ** Strings and sequences of the standard library *)

Module Str.

(** [s.split(sep)] for a separator of one character. *)
Fixpoint split (sep : ascii) (s : string) : list string :=
  match s with
  | EmptyString => [EmptyString]
  | String c r =>
      if Ascii.eqb c sep then EmptyString :: split sep r
      else match split sep r with
           | [] => [String c EmptyString]
           | p :: ps => String c p :: ps
           end
  end.

(** Number of occurrences of a character. *)
Fixpoint count (c : ascii) (s : string) : nat :=
  match s with
  | EmptyString => 0
  | String c' r => (if Ascii.eqb c' c then 1 else 0) + count c r
  end.

(** [a, b = l]. *)
Definition unpack2 {A} (l : list A) : result (A * A) :=
  match l with
  | [a; b] => Ok (a, b)
  | [] | [_] => Err (ValueError "not enough values to unpack (expected 2)")
  | _ => Err (ValueError "too many values to unpack (expected 2)")
  end.

Fixpoint zip {A B} (l : list A) (k : list B) : list (A * B) :=
  match l, k with
  | a :: l', b :: k' => (a, b) :: zip l' k'
  | _, _ => []
  end.

Definition nl : string := String (ascii_of_N 10) EmptyString.

End Str.

(** ** class MsSqlServerOptions *)

Module MsSqlServerOptions.

(** [MsSqlServerOptions(connection_str, table_ref)] *)
Definition __init__ (connection_str table_ref : pystr) : M loc :=
  alloc {| _connection_str := connection_str; _table_ref := table_ref |}.

Definition table_ref (self : loc) : M pystr :=
  o ← load self; mret (_table_ref o).

Definition set_table_ref (self : loc) (table_ref : pystr) : M unit :=
  o ← load self;
  store self {| _connection_str := _connection_str o; _table_ref := table_ref |}.

Definition connection_str (self : loc) : M pystr :=
  o ← load self; mret (_connection_str o).

Definition set_connection_str (self : loc) (connection_str : pystr) : M unit :=
  o ← load self;
  store self {| _connection_str := connection_str; _table_ref := _table_ref o |}.

Definition from_proto (sqlserver_options_proto : Proto.CustomSourceOptions)
  : M loc :=
  options ← lift (Json.loads (Proto.configuration sqlserver_options_proto));
  table_ref ← lift (Json.dict_get options "table_ref");
  connection_str ← lift (Json.dict_get options "connection_str");
  __init__ connection_str table_ref.

Definition to_proto (self : loc) : M Proto.CustomSourceOptions :=
  o ← load self;
  mret {| Proto.configuration :=
            Json.dumps (Json.dict_literal
              [("table_ref", _table_ref o);
               ("connection_string", _connection_str o)]) |}.

End MsSqlServerOptions.

(** ** class MsSqlServerSource(DataSource) *)

Module MsSqlServerSource.

(** The state of a source: its own two attributes and the four the base
    class keeps. *)
Record t := {
  _mssqlserver_options : loc;
  _connection_str : pystr;
  event_timestamp_column : pystr;
  created_timestamp_column : pystr;
  field_mapping : option (gmap string string);
  date_partition_column : pystr;
}.

(** What a source can be compared with. *)
Inductive pyval :=
| PyNone
| PyInt (z : Z)
| PyStr (s : string)
| PyOptions (o : loc)
| PySource (s : t).

Definition isinstance_MsSqlServerSource (v : pyval) : bool :=
  match v with PySource _ => true | _ => false end.

(** The two errors the line [database, table_name = self.table_ref.split(".")]
    can end with: no [split] on [None], or the wrong number of parts. *)
Definition raised_by_split_step (e : exn) : bool :=
  match e with
  | ValueError _ | AttributeError _ => true
  | _ => false
  end.

(** The message of the [TypeError] of [__eq__]. *)
Definition eq_type_error : exn :=
  TypeError "Comparisons should only involve SqlServerSource class objects.".

(** Modelled from the spec: the initializer of the base class
    [DataSource], which is not part of this repository's sources; it
    stores the event-timestamp column, the created-timestamp column, the
    field mapping and the partition column it is given. *)
Definition DataSource__init__ (options : loc) (connection_str : pystr)
    (event_timestamp_column created_timestamp_column : pystr)
    (field_mapping : option (gmap string string))
    (date_partition_column : pystr) : t :=
  {| _mssqlserver_options := options;
     _connection_str := connection_str;
     event_timestamp_column := event_timestamp_column;
     created_timestamp_column := created_timestamp_column;
     field_mapping := field_mapping;
     date_partition_column := date_partition_column |}.

Definition table_ref (self : t) : M pystr :=
  MsSqlServerOptions.table_ref (_mssqlserver_options self).

Definition mssqlserver_options (self : t) : loc :=
  _mssqlserver_options self.

Definition set_mssqlserver_options (self : t) (sqlserver_options : loc) : t :=
  {| _mssqlserver_options := sqlserver_options;
     _connection_str := _connection_str self;
     event_timestamp_column := event_timestamp_column self;
     created_timestamp_column := created_timestamp_column self;
     field_mapping := field_mapping self;
     date_partition_column := date_partition_column self |}.

Definition __eq__ (self : t) (other : pyval) : M bool :=
  match other with
  | PySource other =>
      a ← MsSqlServerOptions.connection_str (mssqlserver_options self);
      b ← MsSqlServerOptions.connection_str (mssqlserver_options other);
      mret (bool_decide (a = b)
            && bool_decide (event_timestamp_column self
                            = event_timestamp_column other)
            && bool_decide (created_timestamp_column self
                            = created_timestamp_column other)
            && bool_decide (field_mapping self = field_mapping other))
  | _ => raise eq_type_error
  end.

Definition to_proto (self : t) : M Proto.DataSource :=
  custom ← MsSqlServerOptions.to_proto (mssqlserver_options self);
  ets ← lift (Proto.set_string "event_timestamp_column"
                (event_timestamp_column self));
  cts ← lift (Proto.set_string "created_timestamp_column"
                (created_timestamp_column self));
  dpc ← lift (Proto.set_string "date_partition_column"
                (date_partition_column self));
  mret {| Proto.type := Proto.CUSTOM_SOURCE;
          Proto.field_mapping := Proto.map_field (field_mapping self);
          Proto.custom_options := custom;
          Proto.event_timestamp_column := ets;
          Proto.created_timestamp_column := cts;
          Proto.date_partition_column := dpc |}.

Definition get_table_query_string (self : t) : M string :=
  tr ← table_ref self;
  mret ("`" +:+ format tr +:+ "`").

(** [validate(config)] checks nothing; [config] is not looked at. *)
Definition validate {RepoConfig : Type} (self : t) (config : RepoConfig)
  : M unit := mret tt.

Definition columns_query (database table_name : string) : string :=
  Str.nl +:+
  "            SELECT COLUMN_NAME, DATA_TYPE FROM " +:+ database +:+
  ".INFORMATION_SCHEMA.COLUMNS" +:+ Str.nl +:+
  "            WHERE TABLE_NAME = '" +:+ table_name +:+ "'" +:+ Str.nl +:+
  "        ".

(** [table_schema[label].to_list()] *)
Fixpoint column (df : DataFrame) (label : string) : result (list string) :=
  match df with
  | [] => Err (KeyError label)
  | (l, vs) :: df' => if String.eqb l label then Ok vs else column df' label
  end.

Section WithEnv.
Context (env : Env).

Definition __init__ (table_ref event_timestamp_column
    created_timestamp_column : pystr)
    (field_mapping : option (gmap string string))
    (date_partition_column connection_str : pystr) : M t :=
  options ← MsSqlServerOptions.__init__ connection_str table_ref;
  ets ← (if truthy event_timestamp_column then mret event_timestamp_column
         else
           _ ← emit (InferEventTimestampColumn "TIMESTAMP|DATETIME");
           lift (_infer_event_timestamp_column env connection_str table_ref
                   "TIMESTAMP|DATETIME"));
  mret (DataSource__init__ options connection_str ets
          created_timestamp_column field_mapping date_partition_column).

Definition from_proto (data_source : Proto.DataSource) : M t :=
  options ← lift (Json.loads
                    (Proto.configuration (Proto.custom_options data_source)));
  let field_mapping := Proto.field_mapping data_source in
  table_ref ← lift (Json.dict_get options "table_ref");
  connection_str ← lift (Json.dict_get options "connection_string");
  __init__ table_ref
    (Some (Proto.event_timestamp_column data_source))
    (Some (Proto.created_timestamp_column data_source))
    (Some field_mapping)
    (Some (Proto.date_partition_column data_source))
    connection_str.

Definition get_table_column_names_and_types (self : t)
  : M (list (string * string)) :=
  _ ← emit (CreateEngine (_connection_str self));
  conn ← lift (create_engine env (_connection_str self));
  let name_type_pairs := [] in
  tr ← table_ref self;
  parts ← match tr with
          | Some s => mret (Str.split "." s)
          | None =>
              raise (AttributeError
                       "'NoneType' object has no attribute 'split'")
          end;
  '(database, table_name) ← lift (Str.unpack2 parts);
  let query := columns_query database table_name in
  _ ← emit (ReadSql query);
  table_schema ← lift (read_sql env query conn);
  names ← lift (column table_schema "COLUMN_NAME");
  types ← lift (column table_schema "DATA_TYPE");
  mret (name_type_pairs ++ Str.zip names types).

(** What can be seen of the connection string of a source in a state:
    [introspection_cs] is the one schema introspection creates its engine
    from (it creates no other engine), [compared_cs] is the one equality
    compares with the other side's and the one [to_proto] writes. *)
Definition observes (self : t) (w : world)
    (introspection_cs compared_cs : pystr) : Prop :=
  (exists r w' evs,
     get_table_column_names_and_types self w = (r, w')
     /\ log w' = log w ++ CreateEngine introspection_cs :: evs
     /\ Forall (fun ev => exists q, ev = ReadSql q) evs)
  /\ (forall other oo,
        heap w !! _mssqlserver_options other = Some oo ->
        __eq__ self (PySource other) w
        = (Ok (bool_decide (compared_cs = World._connection_str oo)
               && bool_decide (event_timestamp_column self
                               = event_timestamp_column other)
               && bool_decide (created_timestamp_column self
                               = created_timestamp_column other)
               && bool_decide (field_mapping self = field_mapping other)),
           w))
  /\ (forall p w',
        to_proto self w = (Ok p, w') ->
        exists d,
          Json.loads (Proto.configuration (Proto.custom_options p)) = Ok d
          /\ Json.dict_get d "connection_string" = Ok compared_cs).

End WithEnv.

End MsSqlServerSource.

(** ** Stubs and sample objects

    A stubbed SQL layer as a test would supply it, a strict one that
    rejects an empty connection string as the URL parser of
    [create_engine] does, and a few objects to run the methods on. *)

Module Examples.

Definition rows_db_t : list (string * string) :=
  [("id", "int"); ("ts", "datetime")].

Definition env_stub : Env :=
  {| create_engine := fun cs => Ok {| url := cs |};
     read_sql := fun _ _ => Ok (frame_of_rows rows_db_t);
     _infer_event_timestamp_column := fun _ _ _ => Ok (Some "ts") |}.

Definition env_strict : Env :=
  {| create_engine := fun cs =>
       if truthy cs then Ok {| url := cs |}
       else Err (ExternalError "Could not parse SQLAlchemy URL from string");
     read_sql := fun _ _ => Ok (frame_of_rows rows_db_t);
     _infer_event_timestamp_column := fun _ _ _ =>
       Err (TypeError "Unable to infer DataSource event_timestamp_column") |}.

Definition opts_db_t : options :=
  {| World._connection_str := Some "mssql://host/db";
     _table_ref := Some "db.t" |}.

Definition opts_mytable : options :=
  {| World._connection_str := Some EmptyString;
     _table_ref := Some "mytable" |}.

Definition opts_mydb : options :=
  {| World._connection_str := Some "mssql://host/db";
     _table_ref := Some "mydb.mytable" |}.

Definition opts_none : options :=
  {| World._connection_str := Some EmptyString; _table_ref := None |}.

Definition w_empty : world := {| heap := ∅; log := [] |}.

(** Four options objects, at 1, 2, 3 and 4. *)
Definition w_objs : world :=
  {| heap := <[4%positive := opts_none]>
               (<[3%positive := opts_mydb]>
                  (<[2%positive := opts_mytable]> {[1%positive := opts_db_t]}));
     log := [] |}.

Definition source_at (l : loc) (cs : pystr) : MsSqlServerSource.t :=
  {| MsSqlServerSource._mssqlserver_options := l;
     MsSqlServerSource._connection_str := cs;
     MsSqlServerSource.event_timestamp_column := Some "ts";
     MsSqlServerSource.created_timestamp_column := Some "created";
     MsSqlServerSource.field_mapping := Some {["a" := "b"]};
     MsSqlServerSource.date_partition_column := Some EmptyString |}.

(** A message as [to_proto] writes it, but with the event-timestamp
    column left at the default of the field. *)
Definition msg_default_ets : Proto.DataSource :=
  {| Proto.type := Proto.CUSTOM_SOURCE;
     Proto.field_mapping := ∅;
     Proto.custom_options :=
       {| Proto.configuration :=
            Json.dumps [("table_ref", Some "db.t");
                        ("connection_string", Some "mssql://host/db")] |};
     Proto.event_timestamp_column := EmptyString;
     Proto.created_timestamp_column := "created";
     Proto.date_partition_column := EmptyString |}.

Definition src_db_t : MsSqlServerSource.t :=
  source_at 1 (Some "mssql://host/db").
Definition src_mytable : MsSqlServerSource.t :=
  source_at 2 (Some EmptyString).
Definition src_mydb : MsSqlServerSource.t :=
  source_at 3 (Some "mssql://host/db").
Definition src_none : MsSqlServerSource.t :=
  source_at 4 (Some EmptyString).

End Examples.

(** ** Further notions and sample objects *)

Module Samples.

(** A byte of printable ASCII, [' '] to ['~']. *)
Definition printable_char (c : ascii) : bool :=
  ((32 <=? N_of_ascii c) && (N_of_ascii c <=? 126))%N.

Fixpoint printable (s : string) : bool :=
  match s with
  | EmptyString => true
  | String c r => printable_char c && printable r
  end.





(** A SQL layer whose query fails. *)
Definition env_query_fails : Env :=
  {| create_engine := fun cs => Ok {| url := cs |};
     read_sql := fun _ _ => Err (ExternalError "Invalid object name");
     _infer_event_timestamp_column := fun _ _ _ => Ok (Some "ts") |}.

End Samples.

(** * Facts *)

(** ** The codec: what [json.loads] reads back from [json.dumps] *)

Module JsonFacts.
Import Json.

Lemma append_cons (x : ascii) (a b : string) :
  String x a +:+ b = String x (a +:+ b).
Proof. reflexivity. Qed.

Lemma append_nil_l (b : string) : EmptyString +:+ b = b.
Proof. reflexivity. Qed.

Lemma append_nil_r (a : string) : a +:+ EmptyString = a.
Proof.
  induction a as [|x a IH]; [reflexivity |].
  rewrite append_cons. f_equal. exact IH.
Qed.

Lemma append_assoc (a b c : string) : (a +:+ b) +:+ c = a +:+ (b +:+ c).
Proof.
  induction a as [|x a IH]; [reflexivity |].
  rewrite !append_cons. f_equal. exact IH.
Qed.

Lemma length_append (a b : string) :
  String.length (a +:+ b) = String.length a + String.length b.
Proof.
  induction a as [|x a IH]; [reflexivity |].
  rewrite append_cons. cbn [String.length]. now rewrite IH.
Qed.

(** One escaped character is read back as that character. *)
Lemma scanstring_escape_char (c : ascii) (t : string) :
  scanstring (escape_char c +:+ t)
  = '(u, r) ← scanstring t; Ok (String c u, r).
Proof.
  destruct c as [[] [] [] [] [] [] [] []]; reflexivity.
Qed.

(** The body of a string literal is read back up to its closing quote. *)
Lemma scanstring_escape (s rest : string) :
  scanstring (escape s +:+ String dquote rest) = Ok (s, rest).
Proof.
  induction s as [|c s IH]; [reflexivity |].
  cbn [escape]. rewrite append_assoc, scanstring_escape_char, IH.
  reflexivity.
Qed.

Lemma skip_ws_dumps_value (v : pystr) (t : string) :
  skip_ws (dumps_value v +:+ t) = dumps_value v +:+ t.
Proof. destruct v; reflexivity. Qed.

Lemma parse_value_dumps (v : pystr) (rest : string) :
  parse_value (dumps_value v +:+ rest) = Ok (v, rest).
Proof.
  destruct v as [s|]; [|reflexivity].
  unfold dumps_value, quote, parse_value.
  rewrite append_cons, append_assoc, append_cons, append_nil_l.
  change (Ascii.eqb dquote dquote) with true. cbv iota.
  rewrite scanstring_escape. reflexivity.
Qed.

Lemma dumps_item_shape (k : string) (v : pystr) (tail : string) :
  dumps_item (k, v) +:+ tail
  = String dquote
      (escape k +:+
       String dquote (String ":" (String " " (dumps_value v +:+ tail)))).
Proof.
  unfold dumps_item, quote. cbn [fst snd].
  rewrite !append_assoc, !append_cons, !append_assoc, !append_cons.
  rewrite !append_nil_l. reflexivity.
Qed.

(** One member, followed by anything. *)
Lemma parse_members_item (fuel : nat) (k : string) (v : pystr)
    (tail : string) (acc : dict) :
  parse_members (S fuel) (dumps_item (k, v) +:+ tail) acc
  = match skip_ws tail with
    | String "}" r4 => Ok (dict_set acc k v, r4)
    | String "," r4 => parse_members fuel (skip_ws r4) (dict_set acc k v)
    | _ => Err (JSONDecodeError "Expecting ',' delimiter")
    end.
Proof.
  rewrite dumps_item_shape. cbn [parse_members].
  change (Ascii.eqb dquote dquote) with true. cbv iota.
  rewrite scanstring_escape. cbn [mbind result_bind rbind].
  change (skip_ws (String ":" ?x)) with (String ":" x). cbv iota beta.
  change (skip_ws (String " " ?x)) with (skip_ws x).
  rewrite skip_ws_dumps_value, parse_value_dumps.
  reflexivity.
Qed.

Lemma dumps_items_cons (kv kv' : string * pystr) (d : dict) :
  dumps_items (kv :: kv' :: d)
  = dumps_item kv +:+ ", " +:+ dumps_items (kv' :: d).
Proof. reflexivity. Qed.

Lemma skip_ws_dumps_items (kv : string * pystr) (d : dict) (t : string) :
  skip_ws (dumps_items (kv :: d) +:+ t) = dumps_items (kv :: d) +:+ t.
Proof.
  destruct kv as [k v].
  destruct d; [| rewrite dumps_items_cons, append_assoc];
    cbn [dumps_items]; now rewrite dumps_item_shape.
Qed.

(** The members of a dumped object are read back in order. *)
Lemma parse_members_dumps (d : dict) :
  forall (kv : string * pystr) (fuel : nat) (rest : string) (acc : dict),
    length d < fuel ->
    parse_members fuel (dumps_items (kv :: d) +:+ String "}" rest) acc
    = Ok (fold_left put (kv :: d) acc, rest).
Proof.
  induction d as [|kv' d IH]; intros [k v] fuel rest acc Hfuel;
    (destruct fuel as [|fuel]; [lia |]).
  - cbn [dumps_items]. rewrite parse_members_item. reflexivity.
  - rewrite dumps_items_cons, !append_assoc, parse_members_item.
    rewrite !append_cons, append_nil_l.
    change (skip_ws (String "," ?x)) with (String "," x). cbv iota beta.
    change (skip_ws (String " " ?x)) with (skip_ws x).
    rewrite skip_ws_dumps_items, IH by (cbn [length] in Hfuel; lia).
    reflexivity.
Qed.

Lemma length_dumps_items (d : dict) :
  length d <= String.length (dumps_items d).
Proof.
  induction d as [|[k v] d IH]; [cbn; lia |].
  destruct d as [|kv' d].
  - cbn [dumps_items length].
    rewrite <- (append_nil_r (dumps_item (k, v))), dumps_item_shape.
    cbn [String.length]. lia.
  - rewrite dumps_items_cons, dumps_item_shape.
    cbn [String.length length]. rewrite length_append.
    cbn [String.length]. rewrite !length_append. cbn [length] in IH. lia.
Qed.

(** [json.loads(json.dumps(d))] gives back the dict that was dumped;
    from a list of members it builds the dict the members denote. *)
Lemma loads_dumps (d : dict) : loads (dumps d) = Ok (dict_literal d).
Proof.
  unfold dumps, loads. rewrite !append_cons, append_nil_l.
  change (skip_ws (String "{" ?x)) with (String "{" x). cbv iota beta.
  destruct d as [|[k v] d]; [reflexivity |].
  rewrite skip_ws_dumps_items.
  assert (Hshape : exists t,
    dumps_items ((k, v) :: d) +:+ "}" = String dquote t).
  { destruct d; [| rewrite dumps_items_cons, append_assoc];
      cbn [dumps_items]; rewrite dumps_item_shape; eauto. }
  destruct Hshape as [t Ht].
  transitivity
    ('(d', r') ← parse_members
        (String.length (dumps_items ((k, v) :: d) +:+ "}"))
        (dumps_items ((k, v) :: d) +:+ "}") [];
     finish d' r').
  { rewrite Ht. reflexivity. }
  rewrite parse_members_dumps.
  - reflexivity.
  - rewrite length_append. cbn [String.length].
    pose proof (length_dumps_items ((k, v) :: d)) as H.
    cbn [length] in H. lia.
Qed.

(** On a dict (keys without repetition) the literal is the dict. *)
Lemma dict_literal_two (k1 k2 : string) (v1 v2 : pystr) :
  k1 <> k2 -> dict_literal [(k1, v1); (k2, v2)] = [(k1, v1); (k2, v2)].
Proof.
  intros Hne. unfold dict_literal, put. cbn.
  destruct (String.eqb_spec k1 k2); [contradiction | reflexivity].
Qed.
End JsonFacts.

(** ** Running the methods *)

Module RunFacts.

Lemma bind_ok {A B} (m : M A) (k : A -> M B) (w w' : world) (a : A) :
  m w = (Ok a, w') -> (m ≫= k) w = k a w'.
Proof. intros H. unfold mbind, M_bind. now rewrite H. Qed.

Lemma load_ok (w : world) (l : loc) (o : options) :
  heap w !! l = Some o -> load l w = (Ok o, w).
Proof. intros H. unfold load. now rewrite H. Qed.

Lemma options_table_ref_ok (w : world) (l : loc) (o : options) :
  heap w !! l = Some o ->
  MsSqlServerOptions.table_ref l w = (Ok (_table_ref o), w).
Proof.
  intros H. unfold MsSqlServerOptions.table_ref.
  now rewrite (bind_ok _ _ _ _ _ (load_ok _ _ _ H)).
Qed.

Lemma options_connection_str_ok (w : world) (l : loc) (o : options) :
  heap w !! l = Some o ->
  MsSqlServerOptions.connection_str l w
  = (Ok (World._connection_str o), w).
Proof.
  intros H. unfold MsSqlServerOptions.connection_str.
  now rewrite (bind_ok _ _ _ _ _ (load_ok _ _ _ H)).
Qed.

(** The payload [MsSqlServerOptions.to_proto] writes. *)
Lemma options_to_proto_ok (w : world) (l : loc) (o : options) :
  heap w !! l = Some o ->
  MsSqlServerOptions.to_proto l w
  = (Ok {| Proto.configuration :=
             Json.dumps [("table_ref", _table_ref o);
                         ("connection_string", World._connection_str o)] |},
     w).
Proof.
  intros H. unfold MsSqlServerOptions.to_proto.
  rewrite (bind_ok _ _ _ _ _ (load_ok _ _ _ H)).
  rewrite JsonFacts.dict_literal_two by discriminate. reflexivity.
Qed.

(** ... and what [json.loads] makes of it. *)
Lemma loads_options_payload (tr cs : pystr) :
  Json.loads (Json.dumps [("table_ref", tr); ("connection_string", cs)])
  = Ok [("table_ref", tr); ("connection_string", cs)].
Proof.
  rewrite JsonFacts.loads_dumps.
  now rewrite JsonFacts.dict_literal_two by discriminate.
Qed.

End RunFacts.

(** ** The statements of the specification *)

Import RunFacts.




(** C3.  Comparing a source with [==] to any value that is not an
    [MsSqlServerSource] (an integer, a string, [None], an options object)
    raises the [TypeError] of [__eq__]; no boolean is returned and the
    state is left as it was. *)
Theorem C3_eq_non_source_raises_TypeError
    (self : MsSqlServerSource.t) (other : MsSqlServerSource.pyval)
    (w : world) :
  MsSqlServerSource.isinstance_MsSqlServerSource other = false ->
  MsSqlServerSource.__eq__ self other w
  = (Err MsSqlServerSource.eq_type_error, w)
  /\ (forall (b : bool) (w' : world),
        MsSqlServerSource.__eq__ self other w <> (Ok b, w')).
Proof.
  intros Hother.
  assert (H : MsSqlServerSource.__eq__ self other w
              = (Err MsSqlServerSource.eq_type_error, w)).
  { destruct other; try reflexivity. discriminate Hother. }
  split; [exact H |]. intros b w'. rewrite H. discriminate.
Qed.

Lemma C3_eq_non_source_raises_TypeError_witness :
  MsSqlServerSource.__eq__ Examples.src_db_t
    (MsSqlServerSource.PyInt 5) Examples.w_objs
  = (Err MsSqlServerSource.eq_type_error, Examples.w_objs)
  /\ MsSqlServerSource.__eq__ Examples.src_db_t
       (MsSqlServerSource.PyStr "db.t") Examples.w_objs
     = (Err MsSqlServerSource.eq_type_error, Examples.w_objs).
Proof.
  split.
  - apply (C3_eq_non_source_raises_TypeError Examples.src_db_t
             (MsSqlServerSource.PyInt 5) Examples.w_objs).
    reflexivity.
  - apply (C3_eq_non_source_raises_TypeError Examples.src_db_t
             (MsSqlServerSource.PyStr "db.t") Examples.w_objs).
    reflexivity.
Defined.

(** What [__eq__] computes on two sources. *)
Lemma eq_sources (a b : MsSqlServerSource.t) (w : world) (oa ob : options) :
  heap w !! MsSqlServerSource._mssqlserver_options a = Some oa ->
  heap w !! MsSqlServerSource._mssqlserver_options b = Some ob ->
  MsSqlServerSource.__eq__ a (MsSqlServerSource.PySource b) w
  = (Ok (bool_decide (World._connection_str oa = World._connection_str ob)
         && bool_decide (MsSqlServerSource.event_timestamp_column a
                         = MsSqlServerSource.event_timestamp_column b)
         && bool_decide (MsSqlServerSource.created_timestamp_column a
                         = MsSqlServerSource.created_timestamp_column b)
         && bool_decide (MsSqlServerSource.field_mapping a
                         = MsSqlServerSource.field_mapping b)), w).
Proof.
  intros Ha Hb. unfold MsSqlServerSource.__eq__.
  unfold MsSqlServerSource.mssqlserver_options.
  rewrite (bind_ok _ _ _ _ _ (options_connection_str_ok _ _ _ Ha)).
  rewrite (bind_ok _ _ _ _ _ (options_connection_str_ok _ _ _ Hb)).
  reflexivity.
Qed.

(** C4.  For two sources, [__eq__] returns a boolean, and it returns
    [True] exactly when the connection strings of their options, their
    event-timestamp columns, their created-timestamp columns and their
    field mappings are equal.  The table reference, the partition column
    and the source's own copy of the connection string are not looked at:
    sources that agree on the four compared parts are equal whatever
    these are, and a difference in any of the four makes them unequal. *)
Theorem C4_eq_compares_four_parts
    (a b : MsSqlServerSource.t) (w : world) (oa ob : options) :
  heap w !! MsSqlServerSource._mssqlserver_options a = Some oa ->
  heap w !! MsSqlServerSource._mssqlserver_options b = Some ob ->
  (exists r : bool,
     MsSqlServerSource.__eq__ a (MsSqlServerSource.PySource b) w = (Ok r, w))
  /\ (MsSqlServerSource.__eq__ a (MsSqlServerSource.PySource b) w
      = (Ok true, w)
      <-> World._connection_str oa = World._connection_str ob
          /\ MsSqlServerSource.event_timestamp_column a
             = MsSqlServerSource.event_timestamp_column b
          /\ MsSqlServerSource.created_timestamp_column a
             = MsSqlServerSource.created_timestamp_column b
          /\ MsSqlServerSource.field_mapping a
             = MsSqlServerSource.field_mapping b)
  /\ (MsSqlServerSource.__eq__ a (MsSqlServerSource.PySource b) w
      = (Ok false, w)
      <-> World._connection_str oa <> World._connection_str ob
          \/ MsSqlServerSource.event_timestamp_column a
             <> MsSqlServerSource.event_timestamp_column b
          \/ MsSqlServerSource.created_timestamp_column a
             <> MsSqlServerSource.created_timestamp_column b
          \/ MsSqlServerSource.field_mapping a
             <> MsSqlServerSource.field_mapping b).
Proof.
  intros Ha Hb. rewrite (eq_sources a b w oa ob Ha Hb).
  split; [eauto |]. split.
  - split.
    + intros [= H].
      rewrite !andb_true_iff, !bool_decide_eq_true in H. tauto.
    + intros (H1 & H2 & H3 & H4).
      rewrite !bool_decide_true by assumption. reflexivity.
  - split.
    + intros [= H].
      rewrite !andb_false_iff, !bool_decide_eq_false in H. tauto.
    + intros H. do 2 f_equal.
      rewrite !andb_false_iff, !bool_decide_eq_false. tauto.
Qed.

Lemma C4_eq_compares_four_parts_witness :
  MsSqlServerSource.__eq__ Examples.src_db_t
    (MsSqlServerSource.PySource Examples.src_mydb) Examples.w_objs
  = (Ok true, Examples.w_objs)
  /\ MsSqlServerSource.__eq__ Examples.src_db_t
       (MsSqlServerSource.PySource Examples.src_mytable) Examples.w_objs
     = (Ok false, Examples.w_objs).
Proof.
  split.
  - apply (C4_eq_compares_four_parts Examples.src_db_t Examples.src_mydb
             Examples.w_objs Examples.opts_db_t Examples.opts_mydb);
      [vm_compute; reflexivity | vm_compute; reflexivity |].
    repeat split; reflexivity.
  - apply (C4_eq_compares_four_parts Examples.src_db_t Examples.src_mytable
             Examples.w_objs Examples.opts_db_t Examples.opts_mytable);
      [vm_compute; reflexivity | vm_compute; reflexivity |].
    left. discriminate.
Defined.

(** The string [get_table_query_string] builds from the table reference
    of the options. *)
Lemma get_table_query_string_ok
    (self : MsSqlServerSource.t) (w : world) (o : options) :
  heap w !! MsSqlServerSource._mssqlserver_options self = Some o ->
  MsSqlServerSource.get_table_query_string self w
  = (Ok ("`" +:+ format (_table_ref o) +:+ "`"), w).
Proof.
  intros H. unfold MsSqlServerSource.get_table_query_string.
  unfold MsSqlServerSource.table_ref.
  now rewrite (bind_ok _ _ _ _ _ (options_table_ref_ok _ _ _ H)).
Qed.

(** C6.  On a source whose table reference is [mydb.mytable],
    [get_table_query_string()] returns that reference between two
    backticks. *)
Theorem C6_get_table_query_string_backticks
    (self : MsSqlServerSource.t) (w : world) (o : options) :
  heap w !! MsSqlServerSource._mssqlserver_options self = Some o ->
  _table_ref o = Some "mydb.mytable" ->
  MsSqlServerSource.get_table_query_string self w
  = (Ok "`mydb.mytable`", w).
Proof.
  intros H Htr. rewrite (get_table_query_string_ok self w o H), Htr.
  reflexivity.
Qed.

Lemma C6_get_table_query_string_backticks_witness :
  MsSqlServerSource.get_table_query_string Examples.src_mydb Examples.w_objs
  = (Ok "`mydb.mytable`", Examples.w_objs).
Proof.
  apply (C6_get_table_query_string_backticks Examples.src_mydb
           Examples.w_objs Examples.opts_mydb).
  - vm_compute. reflexivity.
  - reflexivity.
Defined.

(** What the constructor does: it creates the options object, and keeps
    a truthy event-timestamp column or asks the base class to infer
    one. *)
Lemma init_run (env : Env) (tr ets cts : pystr)
    (fm : option (gmap string string)) (dpc cs : pystr) (w : world) :
  MsSqlServerSource.__init__ env tr ets cts fm dpc cs w
  = let l := fresh (dom (heap w)) in
    let h := <[l := {| World._connection_str := cs; _table_ref := tr |}]>
               (heap w) in
    if truthy ets then
      (Ok (MsSqlServerSource.DataSource__init__ l cs ets cts fm dpc),
       {| heap := h; log := log w |})
    else
      (v ← _infer_event_timestamp_column env cs tr "TIMESTAMP|DATETIME";
       Ok (MsSqlServerSource.DataSource__init__ l cs v cts fm dpc),
       {| heap := h;
          log := log w ++ [InferEventTimestampColumn "TIMESTAMP|DATETIME"] |}).
Proof.
  unfold MsSqlServerSource.__init__, MsSqlServerOptions.__init__.
  unfold mbind, M_bind, alloc, emit, lift, mret, M_ret. cbn [heap log].
  destruct (truthy ets); [reflexivity |].
  destruct (_infer_event_timestamp_column env cs tr "TIMESTAMP|DATETIME");
    reflexivity.
Qed.

(** A source that was constructed refers to the options object made of
    the connection string and table reference it was given. *)
Lemma init_options (env : Env) (tr ets cts : pystr)
    (fm : option (gmap string string)) (dpc cs : pystr)
    (w w' : world) (s : MsSqlServerSource.t) :
  MsSqlServerSource.__init__ env tr ets cts fm dpc cs w = (Ok s, w') ->
  heap w' !! MsSqlServerSource._mssqlserver_options s
  = Some {| World._connection_str := cs; _table_ref := tr |}.
Proof.
  rewrite init_run. cbv zeta.
  destruct (truthy ets).
  - intros [= <- <-]. cbn. apply lookup_insert_eq.
  - destruct (_infer_event_timestamp_column env cs tr "TIMESTAMP|DATETIME");
      [| discriminate].
    intros [= <- <-]. cbn. apply lookup_insert_eq.
Qed.

(** C10.  On a source constructed without a table reference ([None]),
    [get_table_query_string()] does not fail: it returns [None] between
    two backticks. *)
Theorem C10_get_table_query_string_None
    (env : Env) (ets cts : pystr) (fm : option (gmap string string))
    (dpc cs : pystr) (w w' : world) (s : MsSqlServerSource.t) :
  MsSqlServerSource.__init__ env None ets cts fm dpc cs w = (Ok s, w') ->
  MsSqlServerSource.get_table_query_string s w' = (Ok "`None`", w').
Proof.
  intros H. apply init_options in H.
  rewrite (get_table_query_string_ok s w' _ H). reflexivity.
Qed.

Lemma C10_get_table_query_string_None_witness :
  exists (s : MsSqlServerSource.t) (w' : world),
    MsSqlServerSource.__init__ Examples.env_stub None (Some "ts")
      (Some EmptyString) None (Some EmptyString) (Some EmptyString)
      Examples.w_empty = (Ok s, w')
    /\ MsSqlServerSource.get_table_query_string s w' = (Ok "`None`", w').
Proof.
  eexists _, _. split.
  - vm_compute. reflexivity.
  - apply (C10_get_table_query_string_None Examples.env_stub (Some "ts")
             (Some EmptyString) None (Some EmptyString) (Some EmptyString)
             Examples.w_empty).
    vm_compute. reflexivity.
Defined.

(** What [from_proto] does with a message whose payload parses and holds
    both keys: it calls the constructor on the fields of the message. *)
Lemma from_proto_run (env : Env) (msg : Proto.DataSource) (d : Json.dict)
    (tr cs : pystr) (w : world) :
  Json.loads (Proto.configuration (Proto.custom_options msg)) = Ok d ->
  Json.dict_get d "table_ref" = Ok tr ->
  Json.dict_get d "connection_string" = Ok cs ->
  MsSqlServerSource.from_proto env msg w
  = MsSqlServerSource.__init__ env tr
      (Some (Proto.event_timestamp_column msg))
      (Some (Proto.created_timestamp_column msg))
      (Some (Proto.field_mapping msg))
      (Some (Proto.date_partition_column msg)) cs w.
Proof.
  intros Hd Htr Hcs. unfold MsSqlServerSource.from_proto.
  rewrite Hd. unfold mbind at 1, M_bind at 1, lift at 1. cbv iota beta.
  rewrite Htr. unfold mbind at 1, M_bind at 1, lift at 1. cbv iota beta.
  rewrite Hcs. unfold mbind at 1, M_bind at 1, lift at 1. cbv iota beta.
  reflexivity.
Qed.

(** C8.  An empty event-timestamp column counts as not supplied.  The
    constructor given the empty string calls
    [_infer_event_timestamp_column("TIMESTAMP|DATETIME")] (the call is
    logged), stores what the inference returns instead of the empty
    string, and raises what it raises; and so does [from_proto] on a
    message whose [event_timestamp_column] field is the default empty
    string. *)
Theorem C8_empty_event_timestamp_column_is_inferred
    (env : Env) (w : world) :
  (forall (tr cts : pystr) (fm : option (gmap string string))
          (dpc cs : pystr),
     MsSqlServerSource.__init__ env tr (Some EmptyString) cts fm dpc cs w
     = (v ← _infer_event_timestamp_column env cs tr "TIMESTAMP|DATETIME";
        Ok (MsSqlServerSource.DataSource__init__
              (fresh (dom (heap w))) cs v cts fm dpc),
        {| heap := <[fresh (dom (heap w)) :=
                       {| World._connection_str := cs; _table_ref := tr |}]>
                     (heap w);
           log := log w
                  ++ [InferEventTimestampColumn "TIMESTAMP|DATETIME"] |}))
  /\ (forall (msg : Proto.DataSource) (d : Json.dict) (tr cs : pystr),
        Proto.event_timestamp_column msg = EmptyString ->
        Json.loads (Proto.configuration (Proto.custom_options msg)) = Ok d ->
        Json.dict_get d "table_ref" = Ok tr ->
        Json.dict_get d "connection_string" = Ok cs ->
        MsSqlServerSource.from_proto env msg w
        = (v ← _infer_event_timestamp_column env cs tr "TIMESTAMP|DATETIME";
           Ok (MsSqlServerSource.DataSource__init__
                 (fresh (dom (heap w))) cs v
                 (Some (Proto.created_timestamp_column msg))
                 (Some (Proto.field_mapping msg))
                 (Some (Proto.date_partition_column msg))),
           {| heap := <[fresh (dom (heap w)) :=
                          {| World._connection_str := cs; _table_ref := tr |}]>
                        (heap w);
              log := log w
                     ++ [InferEventTimestampColumn "TIMESTAMP|DATETIME"] |})).
Proof.
  split.
  - intros. rewrite init_run. reflexivity.
  - intros msg d tr cs Hets Hd Htr Hcs.
    rewrite (from_proto_run env msg d tr cs w Hd Htr Hcs), Hets, init_run.
    reflexivity.
Qed.

Lemma C8_empty_event_timestamp_column_is_inferred_witness :
  exists (s : MsSqlServerSource.t) (w' : world),
    MsSqlServerSource.from_proto Examples.env_stub Examples.msg_default_ets
      Examples.w_empty = (Ok s, w')
    /\ MsSqlServerSource.event_timestamp_column s = Some "ts"
    /\ log w' = [InferEventTimestampColumn "TIMESTAMP|DATETIME"].
Proof.
  eexists _, _. split.
  - apply (proj2 (C8_empty_event_timestamp_column_is_inferred
                    Examples.env_stub Examples.w_empty)
             Examples.msg_default_ets
             [("table_ref", Some "db.t");
              ("connection_string", Some "mssql://host/db")]
             (Some "db.t") (Some "mssql://host/db"));
      vm_compute; reflexivity.
  - split; reflexivity.
Defined.

(** ** Schema introspection *)

Lemma split_length (sep : ascii) (s : string) :
  length (Str.split sep s) = S (Str.count sep s).
Proof.
  induction s as [|c s IH]; [reflexivity |].
  cbn [Str.split Str.count]. destruct (Ascii.eqb c sep).
  - cbn [length]. rewrite IH. reflexivity.
  - destruct (Str.split sep s); [discriminate IH |].
    cbn [length] in *. lia.
Qed.

(** Unpacking into two names works exactly on two parts. *)
Lemma unpack2_ok {A} (l : list A) :
  length l = 2 <-> exists a b, Str.unpack2 l = Ok (a, b).
Proof.
  destruct l as [|a [|b [|c l]]]; cbn; split;
    try discriminate; try (intros (? & ? & ?); discriminate); eauto.
Qed.

Lemma unpack2_err {A} (l : list A) :
  length l <> 2 -> exists msg, Str.unpack2 l = Err (ValueError msg).
Proof.
  destruct l as [|a [|b [|c l]]]; cbn; intros H; eauto. contradiction.
Qed.

(** [table_ref.split(".")] unpacks into two names exactly when the
    reference holds one dot. *)
Lemma split_unpack_one_dot (t : string) :
  Str.count "." t = 1
  <-> exists db tbl, Str.unpack2 (Str.split "." t) = Ok (db, tbl).
Proof.
  rewrite <- unpack2_ok, split_length. lia.
Qed.

(** The run of [get_table_column_names_and_types], step by step: the
    engine is created from the source's own copy of the connection
    string, then the table reference is split, then the one query is
    issued and its two columns are zipped. *)
Lemma introspect_run (env : Env) (self : MsSqlServerSource.t) (w : world)
    (o : options) :
  heap w !! MsSqlServerSource._mssqlserver_options self = Some o ->
  MsSqlServerSource.get_table_column_names_and_types env self w
  = let cs := MsSqlServerSource._connection_str self in
    let w1 := {| heap := heap w; log := log w ++ [CreateEngine cs] |} in
    match create_engine env cs with
    | Err e => (Err e, w1)
    | Ok conn =>
        match _table_ref o with
        | None =>
            (Err (AttributeError
                    "'NoneType' object has no attribute 'split'"), w1)
        | Some t =>
            match Str.unpack2 (Str.split "." t) with
            | Err e => (Err e, w1)
            | Ok (db, tbl) =>
                let q := MsSqlServerSource.columns_query db tbl in
                (df ← read_sql env q conn;
                 names ← MsSqlServerSource.column df "COLUMN_NAME";
                 types ← MsSqlServerSource.column df "DATA_TYPE";
                 Ok (Str.zip names types),
                 {| heap := heap w;
                    log := log w ++ [CreateEngine cs; ReadSql q] |})
            end
        end
    end.
Proof.
  intros Ho. unfold MsSqlServerSource.get_table_column_names_and_types.
  unfold MsSqlServerSource.table_ref, MsSqlServerOptions.table_ref, load.
  unfold mbind, M_bind, result_bind, emit, lift, mret, M_ret, raise.
  cbv beta zeta. cbn [heap log]. rewrite Ho.
  destruct (create_engine env _) as [conn|e]; [| reflexivity].
  destruct (_table_ref o) as [t|]; [| reflexivity].
  destruct (Str.unpack2 (Str.split "." t)) as [[db tbl]|e]; [| reflexivity].
  cbn [heap log]. rewrite <- !app_assoc. cbn [app].
  destruct (read_sql env _ conn) as [df|e]; [| reflexivity].
  cbn [rbind].
  destruct (MsSqlServerSource.column df "COLUMN_NAME") as [names|e];
    [| reflexivity].
  cbn [rbind].
  destruct (MsSqlServerSource.column df "DATA_TYPE") as [types|e];
    reflexivity.
Qed.

(** C5 (as amended).  On a source whose table reference does not hold
    exactly one dot (or is [None]), [get_table_column_names_and_types()]
    raises, and it does so before any query is issued: the only call that
    left the program is the creation of the engine.  Creating the engine
    comes before the split: when it fails, its error is the one raised;
    when it succeeds, the error is that of the split/unpack step. *)
Theorem C5_malformed_table_ref_raises_before_query
    (env : Env) (self : MsSqlServerSource.t) (w : world) (o : options) :
  heap w !! MsSqlServerSource._mssqlserver_options self = Some o ->
  (forall t, _table_ref o = Some t -> Str.count "." t <> 1) ->
  exists e : exn,
    MsSqlServerSource.get_table_column_names_and_types env self w
    = (Err e,
       {| heap := heap w;
          log := log w
                 ++ [CreateEngine (MsSqlServerSource._connection_str self)] |})
    /\ (forall conn,
          create_engine env (MsSqlServerSource._connection_str self) = Ok conn ->
          MsSqlServerSource.raised_by_split_step e = true)
    /\ (forall e',
          create_engine env (MsSqlServerSource._connection_str self) = Err e' ->
          e = e').
Proof.
  intros Ho Hbad. rewrite (introspect_run env self w o Ho). cbv zeta.
  destruct (create_engine env _) as [conn|e0].
  - destruct (_table_ref o) as [t|] eqn:Ht.
    + destruct (unpack2_err (Str.split "." t)) as [msg Hmsg].
      { rewrite split_length. specialize (Hbad t eq_refl). lia. }
      rewrite Hmsg. eexists. split; [reflexivity |].
      split; [reflexivity | discriminate].
    + eexists. split; [reflexivity |]. split; [reflexivity | discriminate].
  - eexists. split; [reflexivity |]. split; [discriminate |].
    now intros e' [= ->].
Qed.

Lemma C5_malformed_table_ref_raises_before_query_witness :
  exists e : exn,
    MsSqlServerSource.get_table_column_names_and_types
      Examples.env_stub Examples.src_mytable Examples.w_objs
    = (Err e,
       {| heap := heap Examples.w_objs;
          log := [CreateEngine (Some EmptyString)] |})
    /\ MsSqlServerSource.raised_by_split_step e = true.
Proof.
  destruct (C5_malformed_table_ref_raises_before_query
              Examples.env_stub Examples.src_mytable Examples.w_objs
              Examples.opts_mytable) as (e & Hrun & Hsplit & _).
  - vm_compute. reflexivity.
  - intros t [= <-]. vm_compute. discriminate.
  - exists e. split; [exact Hrun |].
    apply (Hsplit {| url := Some EmptyString |}). reflexivity.
Defined.

(** C5 as stated fails: with a SQL layer that rejects the empty
    connection string, the source with table reference [mytable] and the
    default connection string raises the error of the engine, not one of
    the split/unpack step. *)
Lemma C5_counterexample :
  Str.count "." "mytable" <> 1
  /\ ~ exists (e : exn) (w' : world),
         MsSqlServerSource.get_table_column_names_and_types
           Examples.env_strict Examples.src_mytable Examples.w_objs
         = (Err e, w')
         /\ MsSqlServerSource.raised_by_split_step e = true.
Proof.
  split; [vm_compute; discriminate |].
  intros (e & w' & Hrun & Hsplit).
  rewrite (introspect_run _ _ _ Examples.opts_mytable) in Hrun
    by (vm_compute; reflexivity).
  cbn in Hrun. injection Hrun as <- _. discriminate Hsplit.
Qed.

(** Zipping the two columns of a frame of rows gives the rows back. *)
Lemma zip_fst_snd {A B} (rows : list (A * B)) :
  Str.zip rows.*1 rows.*2 = rows.
Proof.
  induction rows as [|[a b] rows IH]; [reflexivity |].
  cbn. now rewrite IH.
Qed.

(** C7.  On a source whose table reference splits into a database and a
    table name, with a SQL layer that creates the engine and answers the
    metadata query with a frame of rows, the method returns exactly these
    rows: same pairs, same order, repetitions kept.  The one query issued
    is the metadata query for that database and table. *)
Theorem C7_introspection_returns_rows_in_order
    (env : Env) (self : MsSqlServerSource.t) (w : world) (o : options)
    (t db tbl : string) (conn : Engine) (rows : list (string * string)) :
  heap w !! MsSqlServerSource._mssqlserver_options self = Some o ->
  _table_ref o = Some t ->
  Str.split "." t = [db; tbl] ->
  create_engine env (MsSqlServerSource._connection_str self) = Ok conn ->
  read_sql env (MsSqlServerSource.columns_query db tbl) conn
  = Ok (frame_of_rows rows) ->
  MsSqlServerSource.get_table_column_names_and_types env self w
  = (Ok rows,
     {| heap := heap w;
        log := log w
               ++ [CreateEngine (MsSqlServerSource._connection_str self);
                   ReadSql (MsSqlServerSource.columns_query db tbl)] |}).
Proof.
  intros Ho Ht Hsplit Hconn Hread.
  rewrite (introspect_run env self w o Ho). cbv zeta.
  rewrite Hconn, Ht, Hsplit. cbn [Str.unpack2]. rewrite Hread.
  cbn. rewrite zip_fst_snd. reflexivity.
Qed.

Lemma C7_introspection_returns_rows_in_order_witness :
  MsSqlServerSource.get_table_column_names_and_types
    Examples.env_stub Examples.src_db_t Examples.w_objs
  = (Ok [("id", "int"); ("ts", "datetime")],
     {| heap := heap Examples.w_objs;
        log := [CreateEngine (Some "mssql://host/db");
                ReadSql (MsSqlServerSource.columns_query "db" "t")] |}).
Proof.
  apply (C7_introspection_returns_rows_in_order
           Examples.env_stub Examples.src_db_t Examples.w_objs
           Examples.opts_db_t "db.t" "db" "t"
           {| url := Some "mssql://host/db" |} Examples.rows_db_t);
    vm_compute; reflexivity.
Defined.

(** ** Serialization of a source *)

(** The message [to_proto] builds: the payload of the options, then the
    three columns, each of which must be a string. *)
Lemma source_to_proto_run (self : MsSqlServerSource.t) (w : world)
    (o : options) :
  heap w !! MsSqlServerSource._mssqlserver_options self = Some o ->
  MsSqlServerSource.to_proto self w
  = (ets ← Proto.set_string "event_timestamp_column"
             (MsSqlServerSource.event_timestamp_column self);
     cts ← Proto.set_string "created_timestamp_column"
             (MsSqlServerSource.created_timestamp_column self);
     dpc ← Proto.set_string "date_partition_column"
             (MsSqlServerSource.date_partition_column self);
     Ok {| Proto.type := Proto.CUSTOM_SOURCE;
           Proto.field_mapping :=
             Proto.map_field (MsSqlServerSource.field_mapping self);
           Proto.custom_options :=
             {| Proto.configuration :=
                  Json.dumps
                    [("table_ref", _table_ref o);
                     ("connection_string", World._connection_str o)] |};
           Proto.event_timestamp_column := ets;
           Proto.created_timestamp_column := cts;
           Proto.date_partition_column := dpc |}, w).
Proof.
  intros Ho. unfold MsSqlServerSource.to_proto.
  unfold MsSqlServerSource.mssqlserver_options.
  rewrite (bind_ok _ _ _ _ _ (options_to_proto_ok _ _ _ Ho)).
  unfold mbind, M_bind, result_bind, lift, mret, M_ret.
  destruct (Proto.set_string "event_timestamp_column" _); [| reflexivity].
  destruct (Proto.set_string "created_timestamp_column" _); [| reflexivity].
  destruct (Proto.set_string "date_partition_column" _); reflexivity.
Qed.




(** ** The two connection strings of a source *)

(** In any state, introspection uses the source's own copy of the
    connection string, while equality and [to_proto] use the one of the
    options object the source refers to. *)
Lemma observes_own_and_options (env : Env) (self : MsSqlServerSource.t)
    (w : world) (o : options) :
  heap w !! MsSqlServerSource._mssqlserver_options self = Some o ->
  MsSqlServerSource.observes env self w
    (MsSqlServerSource._connection_str self) (World._connection_str o).
Proof.
  intros Ho. split; [| split].
  - rewrite (introspect_run env self w o Ho). cbv zeta.
    destruct (create_engine env _) as [conn|e].
    + destruct (_table_ref o) as [t|].
      * destruct (Str.unpack2 (Str.split "." t)) as [[db tbl]|e].
        -- eexists _, _, [ReadSql _]. split; [reflexivity |].
           split; [reflexivity |]. repeat constructor. eauto.
        -- eexists _, _, []. split; [reflexivity |].
           split; [reflexivity | constructor].
      * eexists _, _, []. split; [reflexivity |].
        split; [reflexivity | constructor].
    + eexists _, _, []. split; [reflexivity |].
      split; [reflexivity | constructor].
  - intros other oo Hoo. apply (eq_sources self other w o oo Ho Hoo).
  - intros p w'. rewrite (source_to_proto_run self w o Ho).
    unfold mbind, result_bind.
    destruct (Proto.set_string "event_timestamp_column" _);
      [| discriminate].
    destruct (Proto.set_string "created_timestamp_column" _);
      [| discriminate].
    destruct (Proto.set_string "date_partition_column" _);
      [| discriminate].
    cbn [rbind]. intros [= <- <-]. cbn [Proto.custom_options Proto.configuration].
    eexists. split; [apply loads_options_payload | reflexivity].
Qed.

(** C9.  The connection string schema introspection uses is the copy the
    source keeps for itself, not the one in its options object.  After
    the options object is replaced through the setter, and after the
    connection string of the options object is changed in place,
    equality and [to_proto] see the new connection string, while
    introspection still creates its engine from the copy made at
    construction. *)
Theorem C9_introspection_uses_own_connection_str
    (env : Env) (self : MsSqlServerSource.t) (w : world)
    (o o2 : options) (l2 : loc) (v : pystr) :
  heap w !! MsSqlServerSource._mssqlserver_options self = Some o ->
  heap w !! l2 = Some o2 ->
  MsSqlServerSource.observes env
    (MsSqlServerSource.set_mssqlserver_options self l2) w
    (MsSqlServerSource._connection_str self) (World._connection_str o2)
  /\ exists w2 : world,
       MsSqlServerOptions.set_connection_str
         (MsSqlServerSource.mssqlserver_options self) v w = (Ok tt, w2)
       /\ MsSqlServerSource.observes env self w2
            (MsSqlServerSource._connection_str self) v.
Proof.
  intros Ho Ho2. split.
  - apply (observes_own_and_options env
             (MsSqlServerSource.set_mssqlserver_options self l2) w o2).
    exact Ho2.
  - eexists. split.
    + unfold MsSqlServerOptions.set_connection_str.
      unfold MsSqlServerSource.mssqlserver_options.
      rewrite (bind_ok _ _ _ _ _ (load_ok _ _ _ Ho)).
      unfold store. rewrite Ho. reflexivity.
    + apply (observes_own_and_options env self _
               {| World._connection_str := v; _table_ref := _table_ref o |}).
      cbn [heap]. apply lookup_insert_eq.
Qed.

Lemma C9_introspection_uses_own_connection_str_witness :
  MsSqlServerSource.observes Examples.env_stub
    (MsSqlServerSource.set_mssqlserver_options Examples.src_db_t 2%positive)
    Examples.w_objs (Some "mssql://host/db") (Some EmptyString)
  /\ exists w2 : world,
       MsSqlServerOptions.set_connection_str 1%positive
         (Some "mssql://elsewhere/db") Examples.w_objs = (Ok tt, w2)
       /\ MsSqlServerSource.observes Examples.env_stub Examples.src_db_t w2
            (Some "mssql://host/db") (Some "mssql://elsewhere/db").
Proof.
  apply (C9_introspection_uses_own_connection_str Examples.env_stub
           Examples.src_db_t Examples.w_objs Examples.opts_db_t
           Examples.opts_mytable 2%positive (Some "mssql://elsewhere/db"));
    vm_compute; reflexivity.
Defined.

(** * Further properties of the two classes *)

(** ** Equality *)

(** X1.  In a state where the options objects of the sources exist,
    [__eq__] is an equivalence on sources: a source is equal to itself,
    [a == b] and [b == a] give the same answer, and [a == b] with
    [b == c] gives [a == c]. *)
Theorem X1_eq_is_an_equivalence
    (a b c : MsSqlServerSource.t) (w : world) (oa ob oc : options) :
  heap w !! MsSqlServerSource._mssqlserver_options a = Some oa ->
  heap w !! MsSqlServerSource._mssqlserver_options b = Some ob ->
  heap w !! MsSqlServerSource._mssqlserver_options c = Some oc ->
  MsSqlServerSource.__eq__ a (MsSqlServerSource.PySource a) w = (Ok true, w)
  /\ MsSqlServerSource.__eq__ a (MsSqlServerSource.PySource b) w
     = MsSqlServerSource.__eq__ b (MsSqlServerSource.PySource a) w
  /\ (MsSqlServerSource.__eq__ a (MsSqlServerSource.PySource b) w
      = (Ok true, w) ->
      MsSqlServerSource.__eq__ b (MsSqlServerSource.PySource c) w
      = (Ok true, w) ->
      MsSqlServerSource.__eq__ a (MsSqlServerSource.PySource c) w
      = (Ok true, w)).
Proof.
  intros Ha Hb Hc.
  rewrite (eq_sources a a w oa oa Ha Ha), (eq_sources a b w oa ob Ha Hb),
    (eq_sources b a w ob oa Hb Ha), (eq_sources b c w ob oc Hb Hc),
    (eq_sources a c w oa oc Ha Hc).
  split; [| split].
  - rewrite !bool_decide_true by reflexivity. reflexivity.
  - do 2 f_equal.
    rewrite !(bool_decide_ext (World._connection_str oa = _)
                (World._connection_str ob = World._connection_str oa))
      by (split; congruence).
    rewrite !(bool_decide_ext (MsSqlServerSource.event_timestamp_column a = _)
                (MsSqlServerSource.event_timestamp_column b
                 = MsSqlServerSource.event_timestamp_column a))
      by (split; congruence).
    rewrite !(bool_decide_ext (MsSqlServerSource.created_timestamp_column a = _)
                (MsSqlServerSource.created_timestamp_column b
                 = MsSqlServerSource.created_timestamp_column a))
      by (split; congruence).
    rewrite !(bool_decide_ext (MsSqlServerSource.field_mapping a = _)
                (MsSqlServerSource.field_mapping b
                 = MsSqlServerSource.field_mapping a))
      by (split; congruence).
    reflexivity.
  - intros [= Hab] [= Hbc]. do 2 f_equal.
    rewrite !andb_true_iff, !bool_decide_eq_true in *.
    destruct Hab as (((-> & ->) & ->) & ->). exact Hbc.
Qed.

Lemma X1_eq_is_an_equivalence_witness :
  MsSqlServerSource.__eq__ Examples.src_db_t
    (MsSqlServerSource.PySource Examples.src_db_t) Examples.w_objs
  = (Ok true, Examples.w_objs)
  /\ MsSqlServerSource.__eq__ Examples.src_db_t
       (MsSqlServerSource.PySource Examples.src_mytable) Examples.w_objs
     = MsSqlServerSource.__eq__ Examples.src_mytable
         (MsSqlServerSource.PySource Examples.src_db_t) Examples.w_objs.
Proof.
  destruct (X1_eq_is_an_equivalence Examples.src_db_t Examples.src_mytable
              Examples.src_mydb Examples.w_objs Examples.opts_db_t
              Examples.opts_mytable Examples.opts_mydb)
    as (Hrefl & Hsym & _); try (vm_compute; reflexivity).
  split; [exact Hrefl | exact Hsym].
Defined.

(** ** Serialization loses nothing *)






(** ** Construction *)

Lemma fresh_unused (w : world) : heap w !! fresh (dom (heap w)) = None.
Proof. apply not_elem_of_dom, is_fresh. Qed.

Lemma insert_fresh_keeps (w : world) (o' : options) (l : loc) (o : options) :
  heap w !! l = Some o ->
  <[fresh (dom (heap w)) := o']> (heap w) !! l = Some o.
Proof.
  intros H. rewrite lookup_insert_ne; [exact H |].
  intros Heq. rewrite <- Heq, fresh_unused in H. discriminate.
Qed.



(** X5.  Right after construction the two connection strings of a source
    agree: whenever the constructor returns a source (with or without
    inference), schema introspection, equality and [to_proto] all see the
    connection string the constructor was given. *)
Theorem X5_init_connection_strings_agree
    (env : Env) (tr ets cts : pystr) (fm : option (gmap string string))
    (dpc cs : pystr) (w w' : world) (s : MsSqlServerSource.t) :
  MsSqlServerSource.__init__ env tr ets cts fm dpc cs w = (Ok s, w') ->
  MsSqlServerSource.observes env s w' cs cs.
Proof.
  intros Hinit. pose proof (init_options _ _ _ _ _ _ _ _ _ _ Hinit) as Ho.
  assert (Hcs : MsSqlServerSource._connection_str s = cs).
  { rewrite init_run in Hinit. cbv zeta in Hinit.
    destruct (truthy ets); [now injection Hinit as <- _ |].
    destruct (_infer_event_timestamp_column env cs tr _); [| discriminate].
    now injection Hinit as <- _. }
  pose proof (observes_own_and_options env s w' _ Ho) as Hobs.
  now rewrite Hcs in Hobs.
Qed.

Lemma X5_init_connection_strings_agree_witness :
  exists (s : MsSqlServerSource.t) (w' : world),
    MsSqlServerSource.__init__ Examples.env_stub (Some "db.t") None
      (Some EmptyString) None (Some EmptyString) (Some "mssql://host/db")
      Examples.w_empty = (Ok s, w')
    /\ MsSqlServerSource.observes Examples.env_stub s w'
         (Some "mssql://host/db") (Some "mssql://host/db").
Proof.
  eexists _, _. split; [vm_compute; reflexivity |].
  apply (X5_init_connection_strings_agree Examples.env_stub (Some "db.t")
           None (Some EmptyString) None (Some EmptyString)
           (Some "mssql://host/db") Examples.w_empty).
  vm_compute. reflexivity.
Defined.

(** ** Options objects: accessors, ownership, sharing *)

(** What the two setters of an options object do to the store. *)
Lemma set_connection_str_run (w : world) (l : loc) (o : options) (v : pystr) :
  heap w !! l = Some o ->
  MsSqlServerOptions.set_connection_str l v w
  = (Ok tt,
     {| heap := <[l := {| World._connection_str := v;
                          _table_ref := _table_ref o |}]> (heap w);
        log := log w |}).
Proof.
  intros H. unfold MsSqlServerOptions.set_connection_str.
  rewrite (bind_ok _ _ _ _ _ (load_ok _ _ _ H)). unfold store.
  now rewrite H.
Qed.

Lemma set_table_ref_run (w : world) (l : loc) (o : options) (v : pystr) :
  heap w !! l = Some o ->
  MsSqlServerOptions.set_table_ref l v w
  = (Ok tt,
     {| heap := <[l := {| World._connection_str := World._connection_str o;
                          _table_ref := v |}]> (heap w);
        log := log w |}).
Proof.
  intros H. unfold MsSqlServerOptions.set_table_ref.
  rewrite (bind_ok _ _ _ _ _ (load_ok _ _ _ H)). unfold store.
  now rewrite H.
Qed.

(** X6.  The accessors of [MsSqlServerOptions] behave as two independent
    cells per object: after [opts.connection_str = v] the getter returns
    [v] and the table reference is what it was; after [opts.table_ref = v]
    the getter returns [v] and the connection string is what it was; in
    both cases every other options object is untouched and nothing is
    logged. *)
Theorem X6_options_setters_and_getters
    (w : world) (l : loc) (o : options) (v : pystr) :
  heap w !! l = Some o ->
  (exists w' : world,
     MsSqlServerOptions.set_connection_str l v w = (Ok tt, w')
     /\ MsSqlServerOptions.connection_str l w' = (Ok v, w')
     /\ MsSqlServerOptions.table_ref l w' = (Ok (_table_ref o), w')
     /\ (forall l', l' <> l -> heap w' !! l' = heap w !! l')
     /\ log w' = log w)
  /\ (exists w' : world,
        MsSqlServerOptions.set_table_ref l v w = (Ok tt, w')
        /\ MsSqlServerOptions.table_ref l w' = (Ok v, w')
        /\ MsSqlServerOptions.connection_str l w'
           = (Ok (World._connection_str o), w')
        /\ (forall l', l' <> l -> heap w' !! l' = heap w !! l')
        /\ log w' = log w).
Proof.
  intros H.
  pose (o1 := {| World._connection_str := v; _table_ref := _table_ref o |}).
  pose (o2 := {| World._connection_str := World._connection_str o;
                 _table_ref := v |}).
  split.
  - eexists. split; [apply (set_connection_str_run w l o v H) |].
    split; [| split; [| split]].
    + apply (options_connection_str_ok _ l o1). cbn. apply lookup_insert_eq.
    + apply (options_table_ref_ok _ l o1). cbn. apply lookup_insert_eq.
    + intros l' Hne. cbn. now rewrite lookup_insert_ne.
    + reflexivity.
  - eexists. split; [apply (set_table_ref_run w l o v H) |].
    split; [| split; [| split]].
    + apply (options_table_ref_ok _ l o2). cbn. apply lookup_insert_eq.
    + apply (options_connection_str_ok _ l o2). cbn. apply lookup_insert_eq.
    + intros l' Hne. cbn. now rewrite lookup_insert_ne.
    + reflexivity.
Qed.

Lemma X6_options_setters_and_getters_witness :
  exists w' : world,
    MsSqlServerOptions.set_table_ref 1%positive (Some "db.other")
      Examples.w_objs = (Ok tt, w')
    /\ MsSqlServerOptions.table_ref 1%positive w' = (Ok (Some "db.other"), w')
    /\ MsSqlServerOptions.connection_str 1%positive w'
       = (Ok (Some "mssql://host/db"), w').
Proof.
  destruct (proj2 (X6_options_setters_and_getters Examples.w_objs 1%positive
                     Examples.opts_db_t (Some "db.other") eq_refl))
    as (w' & Hset & Hget & Hcs & _).
  exists w'. repeat split; assumption.
Defined.

(** X7.  Every constructed source owns an options object of its own: two
    sources constructed one after the other refer to different options
    objects, so changing the connection string of the first one's options
    leaves the second one's options as the constructor made them. *)
Theorem X7_constructed_sources_do_not_share_options
    (env : Env) (tr1 ets1 cts1 : pystr) (fm1 : option (gmap string string))
    (dpc1 cs1 : pystr) (tr2 ets2 cts2 : pystr)
    (fm2 : option (gmap string string)) (dpc2 cs2 : pystr)
    (w w1 w2 : world) (s1 s2 : MsSqlServerSource.t) (v : pystr) :
  MsSqlServerSource.__init__ env tr1 ets1 cts1 fm1 dpc1 cs1 w = (Ok s1, w1) ->
  MsSqlServerSource.__init__ env tr2 ets2 cts2 fm2 dpc2 cs2 w1 = (Ok s2, w2) ->
  MsSqlServerSource.mssqlserver_options s1
  <> MsSqlServerSource.mssqlserver_options s2
  /\ exists w3 : world,
       MsSqlServerOptions.set_connection_str
         (MsSqlServerSource.mssqlserver_options s1) v w2 = (Ok tt, w3)
       /\ MsSqlServerOptions.connection_str
            (MsSqlServerSource.mssqlserver_options s1) w3 = (Ok v, w3)
       /\ MsSqlServerOptions.connection_str
            (MsSqlServerSource.mssqlserver_options s2) w3 = (Ok cs2, w3)
       /\ MsSqlServerOptions.table_ref
            (MsSqlServerSource.mssqlserver_options s2) w3 = (Ok tr2, w3).
Proof.
  intros H1 H2.
  pose proof (init_options _ _ _ _ _ _ _ _ _ _ H1) as Ho1.
  pose proof (init_options _ _ _ _ _ _ _ _ _ _ H2) as Ho2.
  assert (Hl2 : heap w1 !! MsSqlServerSource._mssqlserver_options s2 = None).
  { rewrite init_run in H2. cbv zeta in H2.
    destruct (truthy ets2).
    - injection H2 as <- _. apply fresh_unused.
    - destruct (_infer_event_timestamp_column env cs2 tr2 _); [| discriminate].
      injection H2 as <- _. apply fresh_unused. }
  assert (Hkeep : heap w2 !! MsSqlServerSource._mssqlserver_options s1
                  = Some {| World._connection_str := cs1;
                            _table_ref := tr1 |}).
  { rewrite init_run in H2. cbv zeta in H2.
    destruct (truthy ets2).
    - injection H2 as _ <-. cbn. now apply insert_fresh_keeps.
    - destruct (_infer_event_timestamp_column env cs2 tr2 _); [| discriminate].
      injection H2 as _ <-. cbn. now apply insert_fresh_keeps. }
  assert (Hne : MsSqlServerSource._mssqlserver_options s1
                <> MsSqlServerSource._mssqlserver_options s2).
  { intros Heq. rewrite <- Heq, Ho1 in Hl2. discriminate. }
  split; [exact Hne |].
  unfold MsSqlServerSource.mssqlserver_options.
  eexists. split; [apply (set_connection_str_run _ _ _ v Hkeep) |].
  split; [| split].
  - apply (options_connection_str_ok _ _
             {| World._connection_str := v; _table_ref := tr1 |}).
    cbn. apply lookup_insert_eq.
  - apply (options_connection_str_ok _ _
             {| World._connection_str := cs2; _table_ref := tr2 |}).
    cbn. rewrite lookup_insert_ne by exact Hne. exact Ho2.
  - apply (options_table_ref_ok _ _
             {| World._connection_str := cs2; _table_ref := tr2 |}).
    cbn. rewrite lookup_insert_ne by exact Hne. exact Ho2.
Qed.

Lemma X7_constructed_sources_do_not_share_options_witness :
  exists (s1 s2 : MsSqlServerSource.t) (w1 w2 : world),
    MsSqlServerSource.__init__ Examples.env_strict (Some "db.t") (Some "ts")
      (Some EmptyString) None (Some EmptyString) (Some "mssql://host/db")
      Examples.w_empty = (Ok s1, w1)
    /\ MsSqlServerSource.__init__ Examples.env_strict (Some "db.u") (Some "ts")
         (Some EmptyString) None (Some EmptyString) (Some "mssql://host/db")
         w1 = (Ok s2, w2)
    /\ MsSqlServerSource.mssqlserver_options s1
       <> MsSqlServerSource.mssqlserver_options s2.
Proof.
  pose (o1 := {| World._connection_str := Some "mssql://host/db";
                 _table_ref := Some "db.t" |}).
  pose (o2 := {| World._connection_str := Some "mssql://host/db";
                 _table_ref := Some "db.u" |}).
  pose (s1 := MsSqlServerSource.DataSource__init__ 1%positive
                (Some "mssql://host/db") (Some "ts") (Some EmptyString) None
                (Some EmptyString)).
  pose (s2 := MsSqlServerSource.DataSource__init__ 2%positive
                (Some "mssql://host/db") (Some "ts") (Some EmptyString) None
                (Some EmptyString)).
  pose (w1 := {| heap := {[1%positive := o1]}; log := [] |}).
  pose (w2 := {| heap := <[2%positive := o2]> {[1%positive := o1]};
                 log := [] |}).
  assert (H1 : MsSqlServerSource.__init__ Examples.env_strict (Some "db.t")
                 (Some "ts") (Some EmptyString) None (Some EmptyString)
                 (Some "mssql://host/db") Examples.w_empty = (Ok s1, w1))
    by (vm_compute; reflexivity).
  assert (H2 : MsSqlServerSource.__init__ Examples.env_strict (Some "db.u")
                 (Some "ts") (Some EmptyString) None (Some EmptyString)
                 (Some "mssql://host/db") w1 = (Ok s2, w2))
    by (vm_compute; reflexivity).
  exists s1, s2, w1, w2.
  split; [exact H1 |]. split; [exact H2 |].
  exact (proj1 (X7_constructed_sources_do_not_share_options
                  Examples.env_strict
                  (Some "db.t") (Some "ts") (Some EmptyString) None
                  (Some EmptyString) (Some "mssql://host/db")
                  (Some "db.u") (Some "ts") (Some EmptyString) None
                  (Some EmptyString) (Some "mssql://host/db")
                  Examples.w_empty w1 w2 s1 s2 None H1 H2)).
Defined.

(** X8.  The setter of a source stores the options object it is given,
    not a copy.  After [s2.mssqlserver_options = s1.mssqlserver_options]
    the two sources share one object: a table reference set through the
    options of [s1] is the one [s2] reports, as [table_ref] and in
    [get_table_query_string()]. *)
Theorem X8_setter_shares_the_options_object
    (s1 s2 : MsSqlServerSource.t) (w : world) (o1 : options) (t : pystr) :
  heap w !! MsSqlServerSource._mssqlserver_options s1 = Some o1 ->
  exists w' : world,
    MsSqlServerOptions.set_table_ref
      (MsSqlServerSource.mssqlserver_options s1) t w = (Ok tt, w')
    /\ MsSqlServerSource.table_ref
         (MsSqlServerSource.set_mssqlserver_options s2
            (MsSqlServerSource.mssqlserver_options s1)) w' = (Ok t, w')
    /\ MsSqlServerSource.get_table_query_string
         (MsSqlServerSource.set_mssqlserver_options s2
            (MsSqlServerSource.mssqlserver_options s1)) w'
       = (Ok ("`" +:+ format t +:+ "`"), w')
    /\ MsSqlServerSource.table_ref s1 w' = (Ok t, w').
Proof.
  intros H1. unfold MsSqlServerSource.mssqlserver_options.
  pose (o := {| World._connection_str := World._connection_str o1;
                _table_ref := t |}).
  eexists. split; [apply (set_table_ref_run w _ o1 t H1) |].
  split; [| split].
  - apply (options_table_ref_ok _ _ o). cbn. apply lookup_insert_eq.
  - apply (get_table_query_string_ok _ _ o). cbn. apply lookup_insert_eq.
  - apply (options_table_ref_ok _ _ o). cbn. apply lookup_insert_eq.
Qed.

Lemma X8_setter_shares_the_options_object_witness :
  exists w' : world,
    MsSqlServerOptions.set_table_ref 1%positive (Some "db.shared")
      Examples.w_objs = (Ok tt, w')
    /\ MsSqlServerSource.get_table_query_string
         (MsSqlServerSource.set_mssqlserver_options Examples.src_mytable
            1%positive) w'
       = (Ok "`db.shared`", w').
Proof.
  destruct (X8_setter_shares_the_options_object Examples.src_db_t
              Examples.src_mytable Examples.w_objs Examples.opts_db_t
              (Some "db.shared") eq_refl)
    as (w' & Hset & _ & Hq & _).
  exists w'. split; [exact Hset | exact Hq].
Defined.

(** ** Reading payloads *)











(** ** More on schema introspection *)

(** The first part [split] returns holds no separator, and the rest of
    the parts are the split of what follows the first separator. *)
Lemma split_spec (sep : ascii) (s p : string) (ps : list string) :
  Str.split sep s = p :: ps ->
  Str.count sep p = 0
  /\ match ps with
     | [] => s = p
     | _ :: _ => exists r, s = p +:+ String sep r /\ Str.split sep r = ps
     end.
Proof.
  revert p ps. induction s as [|c s IH]; intros p ps.
  - intros [= <- <-]. now split.
  - cbn [Str.split]. destruct (Ascii.eqb_spec c sep) as [-> | Hne].
    + intros [= <- <-]. split; [reflexivity |].
      pose proof (split_length sep s) as Hlen.
      destruct (Str.split sep s) as [|q qs] eqn:Hs; [discriminate Hlen |].
      exists s. split; [reflexivity | exact Hs].
    + pose proof (split_length sep s) as Hlen.
      destruct (Str.split sep s) as [|q qs] eqn:Hs; [discriminate Hlen |].
      intros [= <- <-]. destruct (IH q qs eq_refl) as [Hq Hrest].
      split.
      * cbn [Str.count]. destruct (Ascii.eqb_spec c sep); [contradiction |].
        exact Hq.
      * destruct qs as [|q' qs].
        -- now rewrite Hrest.
        -- destruct Hrest as (r & -> & Hr). exists r.
           split; [reflexivity | exact Hr].
Qed.

(** X13.  With a table reference that holds exactly one dot and an engine
    that could be created, the one query issued is the metadata query
    built from the text before the dot as database and the text after it
    as table name; both are taken as they are, and neither holds a dot. *)
Theorem X13_query_is_built_from_the_two_parts
    (env : Env) (self : MsSqlServerSource.t) (w : world) (o : options)
    (t : string) (conn : Engine) :
  heap w !! MsSqlServerSource._mssqlserver_options self = Some o ->
  _table_ref o = Some t ->
  Str.count "." t = 1 ->
  create_engine env (MsSqlServerSource._connection_str self) = Ok conn ->
  exists (db tbl : string) (r : result (list (string * string))),
    t = db +:+ "." +:+ tbl
    /\ Str.count "." db = 0
    /\ Str.count "." tbl = 0
    /\ MsSqlServerSource.get_table_column_names_and_types env self w
       = (r,
          {| heap := heap w;
             log := log w
                    ++ [CreateEngine (MsSqlServerSource._connection_str self);
                        ReadSql (MsSqlServerSource.columns_query db tbl)] |}).
Proof.
  intros Ho Ht Hcount Hconn.
  pose proof (split_length "." t) as Hlen. rewrite Hcount in Hlen.
  destruct (Str.split "." t) as [|db [|tbl [|x xs]]] eqn:Hs;
    try discriminate Hlen.
  destruct (split_spec "." t db [tbl] Hs) as (Hdb & r & -> & Hr).
  destruct (split_spec "." r tbl [] Hr) as (Htbl & ->).
  exists db, tbl. eexists. split; [reflexivity |].
  split; [exact Hdb |]. split; [exact Htbl |].
  rewrite (introspect_run env self w o Ho). cbv zeta.
  rewrite Hconn, Ht, Hs. reflexivity.
Qed.

Lemma X13_query_is_built_from_the_two_parts_witness :
  exists (db tbl : string) (r : result (list (string * string))),
    "db.t" = db +:+ "." +:+ tbl
    /\ Str.count "." db = 0
    /\ Str.count "." tbl = 0
    /\ MsSqlServerSource.get_table_column_names_and_types
         Examples.env_stub Examples.src_db_t Examples.w_objs
       = (r,
          {| heap := heap Examples.w_objs;
             log := log Examples.w_objs
                    ++ [CreateEngine
                          (MsSqlServerSource._connection_str Examples.src_db_t);
                        ReadSql (MsSqlServerSource.columns_query db tbl)] |}).
Proof.
  apply (X13_query_is_built_from_the_two_parts Examples.env_stub
           Examples.src_db_t Examples.w_objs Examples.opts_db_t "db.t"
           {| url := Some "mssql://host/db" |});
    vm_compute; reflexivity.
Defined.

(** X14.  Errors of the SQL layer pass through
    [get_table_column_names_and_types] as they are.  An error of
    [create_engine] is raised before the table reference is looked at and
    without a query; an error of the query, on a table reference of two
    parts, is raised after that one query.  The store is untouched. *)
Theorem X14_sql_errors_propagate
    (env : Env) (self : MsSqlServerSource.t) (w : world) (o : options) :
  heap w !! MsSqlServerSource._mssqlserver_options self = Some o ->
  (forall e,
     create_engine env (MsSqlServerSource._connection_str self) = Err e ->
     MsSqlServerSource.get_table_column_names_and_types env self w
     = (Err e,
        {| heap := heap w;
           log := log w
                  ++ [CreateEngine (MsSqlServerSource._connection_str self)] |}))
  /\ (forall conn t db tbl e,
        create_engine env (MsSqlServerSource._connection_str self) = Ok conn ->
        _table_ref o = Some t ->
        Str.split "." t = [db; tbl] ->
        read_sql env (MsSqlServerSource.columns_query db tbl) conn = Err e ->
        MsSqlServerSource.get_table_column_names_and_types env self w
        = (Err e,
           {| heap := heap w;
              log := log w
                     ++ [CreateEngine (MsSqlServerSource._connection_str self);
                         ReadSql (MsSqlServerSource.columns_query db tbl)] |})).
Proof.
  intros Ho. rewrite (introspect_run env self w o Ho). cbv zeta. split.
  - intros e ->. reflexivity.
  - intros conn t db tbl e -> -> -> Hread. cbn [Str.unpack2].
    rewrite Hread. reflexivity.
Qed.

Lemma X14_sql_errors_propagate_witness :
  MsSqlServerSource.get_table_column_names_and_types
    Examples.env_strict Examples.src_mytable Examples.w_objs
  = (Err (ExternalError "Could not parse SQLAlchemy URL from string"),
     {| heap := heap Examples.w_objs;
        log := [CreateEngine (Some EmptyString)] |})
  /\ MsSqlServerSource.get_table_column_names_and_types
       Samples.env_query_fails Examples.src_db_t Examples.w_objs
     = (Err (ExternalError "Invalid object name"),
        {| heap := heap Examples.w_objs;
           log := [CreateEngine (Some "mssql://host/db");
                   ReadSql (MsSqlServerSource.columns_query "db" "t")] |}).
Proof.
  split.
  - apply (proj1 (X14_sql_errors_propagate Examples.env_strict
                    Examples.src_mytable Examples.w_objs
                    Examples.opts_mytable eq_refl)).
    reflexivity.
  - apply (proj2 (X14_sql_errors_propagate Samples.env_query_fails
                    Examples.src_db_t Examples.w_objs
                    Examples.opts_db_t eq_refl)
             {| url := Some "mssql://host/db" |} "db.t" "db" "t");
      reflexivity.
Defined.

(** X15.  After the options object of a source is replaced, introspection
    mixes the two configurations: it creates the engine from the
    connection string the source was constructed with and asks it about
    the table of the new options object. *)
Theorem X15_replaced_options_mix_connection_and_table
    (env : Env) (self : MsSqlServerSource.t) (w : world) (l2 : loc)
    (o2 : options) (t2 db tbl : string) (conn : Engine) :
  heap w !! l2 = Some o2 ->
  _table_ref o2 = Some t2 ->
  Str.split "." t2 = [db; tbl] ->
  create_engine env (MsSqlServerSource._connection_str self) = Ok conn ->
  exists r : result (list (string * string)),
    MsSqlServerSource.get_table_column_names_and_types env
      (MsSqlServerSource.set_mssqlserver_options self l2) w
    = (r,
       {| heap := heap w;
          log := log w
                 ++ [CreateEngine (MsSqlServerSource._connection_str self);
                     ReadSql (MsSqlServerSource.columns_query db tbl)] |}).
Proof.
  intros Ho2 Ht Hs Hconn. eexists.
  rewrite (introspect_run env
             (MsSqlServerSource.set_mssqlserver_options self l2) w o2 Ho2).
  cbv zeta. cbn [MsSqlServerSource.set_mssqlserver_options
                   MsSqlServerSource._connection_str].
  rewrite Hconn, Ht, Hs. reflexivity.
Qed.

Lemma X15_replaced_options_mix_connection_and_table_witness :
  exists r : result (list (string * string)),
    MsSqlServerSource.get_table_column_names_and_types Examples.env_stub
      (MsSqlServerSource.set_mssqlserver_options Examples.src_mytable
         3%positive) Examples.w_objs
    = (r,
       {| heap := heap Examples.w_objs;
          log := log Examples.w_objs
                 ++ [CreateEngine
                       (MsSqlServerSource._connection_str Examples.src_mytable);
                     ReadSql
                       (MsSqlServerSource.columns_query "mydb" "mytable")] |}).
Proof.
  apply (X15_replaced_options_mix_connection_and_table Examples.env_stub
           Examples.src_mytable Examples.w_objs 3%positive Examples.opts_mydb
           "mydb.mytable" "mydb" "mytable" {| url := Some EmptyString |});
    vm_compute; reflexivity.
Defined.

(** ** More on serialization *)

Lemma printable_app (a b : string) :
  Samples.printable (a +:+ b) = Samples.printable a && Samples.printable b.
Proof.
  induction a as [|c a IH]; [reflexivity |].
  rewrite JsonFacts.append_cons. cbn [Samples.printable].
  now rewrite IH, andb_assoc.
Qed.

Lemma printable_escape_char (c : ascii) :
  Samples.printable (Json.escape_char c) = true.
Proof. destruct c as [[] [] [] [] [] [] [] []]; reflexivity. Qed.

Lemma printable_quote (s : string) : Samples.printable (Json.quote s) = true.
Proof.
  unfold Json.quote. cbn [Samples.printable]. rewrite printable_app.
  change (Samples.printable_char Json.dquote) with true.
  cbn [Samples.printable andb]. rewrite andb_true_r.
  induction s as [|c s IH]; [reflexivity |].
  cbn [Json.escape]. now rewrite printable_app, printable_escape_char, IH.
Qed.

Lemma printable_dumps_item (kv : string * pystr) :
  Samples.printable (Json.dumps_item kv) = true.
Proof.
  unfold Json.dumps_item. rewrite !printable_app, printable_quote.
  destruct kv as [k [v|]]; cbn [snd Json.dumps_value];
    [now rewrite printable_quote | reflexivity].
Qed.

Lemma printable_dumps (d : Json.dict) : Samples.printable (Json.dumps d) = true.
Proof.
  unfold Json.dumps. rewrite !printable_app. cbn [Samples.printable].
  change (Samples.printable_char "{") with true.
  change (Samples.printable_char "}") with true.
  cbn [andb]. rewrite andb_true_r.
  induction d as [|kv [|kv' d] IH]; [reflexivity | |].
  - apply printable_dumps_item.
  - rewrite JsonFacts.dumps_items_cons, !printable_app, printable_dumps_item.
    rewrite IH. reflexivity.
Qed.

(** X16.  The payload [MsSqlServerOptions.to_proto] writes is printable
    ASCII throughout, whatever bytes the table reference and the
    connection string hold: everything else is written as an escape. *)
Theorem X16_payload_is_printable_ascii
    (w : world) (l : loc) (o : options) :
  heap w !! l = Some o ->
  exists p : Proto.CustomSourceOptions,
    MsSqlServerOptions.to_proto l w = (Ok p, w)
    /\ Samples.printable (Proto.configuration p) = true.
Proof.
  intros H. eexists. split; [apply (options_to_proto_ok w l o H) |].
  apply printable_dumps.
Qed.

Lemma X16_payload_is_printable_ascii_witness :
  exists p : Proto.CustomSourceOptions,
    MsSqlServerOptions.to_proto 1%positive Examples.w_objs
    = (Ok p, Examples.w_objs)
    /\ Samples.printable (Proto.configuration p) = true.
Proof.
  apply (X16_payload_is_printable_ascii Examples.w_objs 1%positive
           Examples.opts_db_t).
  vm_compute. reflexivity.
Defined.



(** ** Inference and repeated introspection *)




